(** * gdal_type_traits.hpp: the compile-time map from C++ types to GDALDataType

    The header resolves [gdaltypetraits::Convert<T>::value] by template
    specialisation.  A template is modelled as a function of its template
    arguments; instantiating it either yields its static members or makes
    the program ill-formed (a failed [static_assert], [sizeof] of an
    incomplete type), which is the error monad [Instantiation].           *)

From Stdlib Require Import NArith ZArith Bool List String Lia.
From ExtLib Require Import Structures.Monad Structures.MonadExc.
From ExtLib Require Import Data.Monads.EitherMonad.
Import ListNotations.
Import MonadNotation.
Local Open Scope monad_scope.
Local Open Scope N_scope.

(** ** gdal.h: the pixel data types

    [GDALDataType] is GDAL's own enumeration (gdal.h is GDAL's header, not
    a file of this repository).  The enumerators and their integer codes
    are those of GDAL 3.7; the releases of 2016 stop at [GDT_CFloat64]. *)

Inductive GDALDataType : Set :=
  | GDT_Unknown
  | GDT_Byte
  | GDT_UInt16
  | GDT_Int16
  | GDT_UInt32
  | GDT_Int32
  | GDT_Float32
  | GDT_Float64
  | GDT_CInt16
  | GDT_CInt32
  | GDT_CFloat32
  | GDT_CFloat64
  | GDT_UInt64
  | GDT_Int64
  | GDT_Int8
  | GDT_TypeCount.

(** The integer value of an enumerator. *)
Definition GDALDataType_code (t : GDALDataType) : Z :=
  match t with
  | GDT_Unknown => 0
  | GDT_Byte => 1
  | GDT_UInt16 => 2
  | GDT_Int16 => 3
  | GDT_UInt32 => 4
  | GDT_Int32 => 5
  | GDT_Float32 => 6
  | GDT_Float64 => 7
  | GDT_CInt16 => 8
  | GDT_CInt32 => 9
  | GDT_CFloat32 => 10
  | GDT_CFloat64 => 11
  | GDT_UInt64 => 12
  | GDT_Int64 => 13
  | GDT_Int8 => 14
  | GDT_TypeCount => 15
  end%Z.

(** [a != b] on an unscoped enumeration compares the integer values. *)
Definition GDALDataType_ne (a b : GDALDataType) : bool :=
  negb (GDALDataType_code a =? GDALDataType_code b)%Z.

(** ** C++ types, as far as <type_traits> and [sizeof] can tell them apart

    A type is described by what the header reads of it.  Sizes are in
    bytes ([size_t], here [N]).
    - [Integral s sg]: an integral type ([bool], the character types, the
      standard and extended integer types, cv-qualified or not) with
      [sizeof == s] and [std::is_signed == sg];
    - [FloatingPoint s]: [float], [double], [long double], ...;
    - [Enumeration s sg]: an enumeration.  Its underlying type is an
      integral type by [dcl.enum], so it is given by that type's size and
      signedness;
    - [Other name size]: every remaining type (pointers, references,
      arrays, classes, [void], functions, ...); [size] is [None] when
      [sizeof] does not apply to it ([void], incomplete and function
      types).                                                            *)

Inductive CxxType : Set :=
  | Integral (size : N) (signed : bool)
  | FloatingPoint (size : N)
  | Enumeration (underlying_size : N) (underlying_signed : bool)
  | Other (name : string) (size : option N).

(** [std::is_integral<T>::value] *)
Definition is_integral (T : CxxType) : bool :=
  match T with Integral _ _ => true | _ => false end.

(** [std::is_floating_point<T>::value] *)
Definition is_floating_point (T : CxxType) : bool :=
  match T with FloatingPoint _ => true | _ => false end.

(** [std::is_enum<T>::value] *)
Definition is_enum (T : CxxType) : bool :=
  match T with Enumeration _ _ => true | _ => false end.

(** [std::is_signed<T>::value]: [T(-1) < T(0)] for an arithmetic type and
    [false] for every other type, enumerations included. *)
Definition is_signed (T : CxxType) : bool :=
  match T with
  | Integral _ sg => sg
  | FloatingPoint _ => true
  | Enumeration _ _ => false
  | Other _ _ => false
  end.

(** The underlying type of an enumeration; no other type has one. *)
Definition underlying (T : CxxType) : option CxxType :=
  match T with
  | Enumeration s sg => Some (Integral s sg)
  | _ => None
  end.

(** The size of a complete object type.  An enumeration has the size of
    its underlying type. *)
Definition size_of (T : CxxType) : option N :=
  match T with
  | Integral s _ => Some s
  | FloatingPoint s => Some s
  | Enumeration s _ => Some s
  | Other _ s => s
  end.

(** The three classification traits [Convert] passes to [BuiltInToGDAL]. *)
Definition classification (T : CxxType) : bool * bool * bool :=
  (is_integral T, is_floating_point T, is_enum T).

(** The signedness of a type as the header reads it: [std::is_signed] of
    the type itself, and for an enumeration [std::is_signed] of its
    underlying type (the only signedness the enumeration branch looks at;
    [std::is_signed] of the enumeration is never evaluated). *)
Definition signedness (T : CxxType) : bool :=
  match underlying T with
  | Some U => is_signed U
  | None => is_signed T
  end.

(** ** Template instantiation *)

(** The result of instantiating a template: its member, or the diagnostic
    of an ill-formed program. *)
Definition Instantiation : Type -> Type := sum string.

Definition ill_formed {A : Type} (diagnostic : string) : Instantiation A :=
  raise diagnostic.

(** [sizeof(T)] *)
Definition sizeof (T : CxxType) : Instantiation N :=
  match size_of T with
  | Some n => ret n
  | None => ill_formed "invalid application of sizeof to an incomplete type"
  end.

(** [typename std::underlying_type<T>::type] *)
Definition underlying_type (T : CxxType) : Instantiation CxxType :=
  match underlying T with
  | Some U => ret U
  | None => ill_formed "only enumeration types have underlying types"
  end.

(** [static_assert(cond, message);] *)
Definition static_assert (cond : bool) (message : string) : Instantiation unit :=
  if cond then ret tt else ill_formed message.

(** [CHAR_BIT] of <climits>; the header refuses to compile unless it is 8. *)
Definition CHAR_BIT : N := 8.

(** The width of a type in bits. *)
Definition bit_width (T : CxxType) : option N :=
  option_map (N.mul CHAR_BIT) (size_of T).

(** ** The data model of a platform

    The sizes of the fundamental types and the signedness of plain [char]
    are implementation-defined. *)

Record DataModel : Set := mkDataModel {
  sizeof_bool : N;
  char_is_signed : bool;
  sizeof_short : N;
  sizeof_int : N;
  sizeof_long : N;
  sizeof_long_long : N;
  sizeof_float : N;
  sizeof_double : N;
  sizeof_long_double : N;
  sizeof_float_t : N;
  sizeof_double_t : N;
  sizeof_pointer : N
}.

(** x86-64 System V (Linux, macOS): LP64, signed [char],
    [FLT_EVAL_METHOD == 0]. *)
Definition LP64 : DataModel :=
  {| sizeof_bool := 1; char_is_signed := true;
     sizeof_short := 2; sizeof_int := 4; sizeof_long := 8;
     sizeof_long_long := 8;
     sizeof_float := 4; sizeof_double := 8; sizeof_long_double := 16;
     sizeof_float_t := 4; sizeof_double_t := 8;
     sizeof_pointer := 8 |}.

(** i386 System V with the x87 unit ([FLT_EVAL_METHOD == 2]): ILP32, and
    [float_t] and [double_t] are both [long double], 12 bytes. *)
Definition ILP32_x87 : DataModel :=
  {| sizeof_bool := 1; char_is_signed := true;
     sizeof_short := 2; sizeof_int := 4; sizeof_long := 4;
     sizeof_long_long := 8;
     sizeof_float := 4; sizeof_double := 8; sizeof_long_double := 12;
     sizeof_float_t := 12; sizeof_double_t := 12;
     sizeof_pointer := 4 |}.

Section FundamentalTypes.
Variable dm : DataModel.

Definition bool_t : CxxType := Integral (sizeof_bool dm) false.
Definition char_t : CxxType := Integral 1 (char_is_signed dm).
Definition signed_char_t : CxxType := Integral 1 true.
Definition unsigned_char_t : CxxType := Integral 1 false.
Definition short_t : CxxType := Integral (sizeof_short dm) true.
Definition unsigned_short_t : CxxType := Integral (sizeof_short dm) false.
Definition int_t : CxxType := Integral (sizeof_int dm) true.
Definition unsigned_int_t : CxxType := Integral (sizeof_int dm) false.
Definition long_t : CxxType := Integral (sizeof_long dm) true.
Definition unsigned_long_t : CxxType := Integral (sizeof_long dm) false.
Definition long_long_t : CxxType := Integral (sizeof_long_long dm) true.
Definition unsigned_long_long_t : CxxType :=
  Integral (sizeof_long_long dm) false.
Definition float_ : CxxType := FloatingPoint (sizeof_float dm).
Definition double_ : CxxType := FloatingPoint (sizeof_double dm).
Definition long_double_ : CxxType := FloatingPoint (sizeof_long_double dm).
(** [float_t] and [double_t] of <cmath> *)
Definition float_t : CxxType := FloatingPoint (sizeof_float_t dm).
Definition double_t : CxxType := FloatingPoint (sizeof_double_t dm).
(** [void*] *)
Definition void_ptr : CxxType := Other "void*" (Some (sizeof_pointer dm)).
End FundamentalTypes.

(** [void] *)
Definition void_ : CxxType := Other "void" None.

(** The exact-width types of <cstdint>; with [CHAR_BIT == 8] an [intN_t]
    has [N / 8] bytes. *)
Definition int8_t : CxxType := Integral 1 true.
Definition int16_t : CxxType := Integral 2 true.
Definition int32_t : CxxType := Integral 4 true.
Definition int64_t : CxxType := Integral 8 true.
Definition uint8_t : CxxType := Integral 1 false.
Definition uint16_t : CxxType := Integral 2 false.
Definition uint32_t : CxxType := Integral 4 false.
Definition uint64_t : CxxType := Integral 8 false.

(** ** namespace gdaltypetraits::internal *)

Module internal.

(** [static_assert(CHAR_BIT == 8, ...)] at namespace scope. *)
Definition char_bit_check : Instantiation unit :=
  static_assert (CHAR_BIT =? 8)
    "This module is tailored toward systems where char == 8 bits. How old is this system?".

(** [FloatToGDAL<FloatSize>::value]: the primary template and its
    specialisations for 4 and 8. *)
Definition FloatToGDAL (FloatSize : N) : GDALDataType :=
  match FloatSize with
  | 4 => GDT_Float32
  | 8 => GDT_Float64
  | _ => GDT_Unknown
  end.

(** [IntegralToGDAL<IntegralSize, IsSigned>::value]: the primary
    template and its six specialisations. *)
Definition IntegralToGDAL (IntegralSize : N) (IsSigned : bool)
  : GDALDataType :=
  match IntegralSize, IsSigned with
  | 1, false => GDT_Byte
  | 1, true => GDT_Byte
  | 2, false => GDT_UInt16
  | 2, true => GDT_Int16
  | 4, false => GDT_UInt32
  | 4, true => GDT_Int32
  | _, _ => GDT_Unknown
  end.

(** [BuiltInToGDAL<true, false, false, T>::value] *)
Definition BuiltInToGDAL_Integral (T : CxxType)
  : Instantiation GDALDataType :=
  n <- sizeof T ;;
  ret (IntegralToGDAL n (is_signed T)).

(** [BuiltInToGDAL<false, true, false, T>::value] *)
Definition BuiltInToGDAL_Float (T : CxxType)
  : Instantiation GDALDataType :=
  n <- sizeof T ;;
  ret (FloatToGDAL n).

(** [BuiltInToGDAL<false, false, true, T>::value] *)
Definition BuiltInToGDAL_Enum (T : CxxType)
  : Instantiation GDALDataType :=
  UnderlyingType <- underlying_type T ;;
  static_assert (is_integral UnderlyingType)
    "The enumeration base type must be integral." ;;
  BuiltInToGDAL_Integral UnderlyingType.

(** [BuiltInToGDAL<IsIntegral, IsFloat, IsEnum, T>::value]: the three
    partial specialisations, and the primary template for every other
    combination of the flags. *)
Definition BuiltInToGDAL (IsIntegral IsFloat IsEnum : bool) (T : CxxType)
  : Instantiation GDALDataType :=
  match IsIntegral, IsFloat, IsEnum with
  | true, false, false => BuiltInToGDAL_Integral T
  | false, true, false => BuiltInToGDAL_Float T
  | false, false, true => BuiltInToGDAL_Enum T
  | _, _, _ => ret GDT_Unknown
  end.

(** [internal::Convert<T>::value] *)
Definition Convert (T : CxxType) : Instantiation GDALDataType :=
  BuiltInToGDAL (is_integral T) (is_floating_point T) (is_enum T) T.

End internal.

(** ** namespace gdaltypetraits *)

(** The static members of [struct Convert]. *)
Record ConvertMembers : Set := mkConvert {
  value : GDALDataType;
  is_recognized : bool
}.

(** [gdaltypetraits::Convert<T>] *)
Definition Convert (T : CxxType) : Instantiation ConvertMembers :=
  v <- internal.Convert T ;;
  ret {| value := v; is_recognized := GDALDataType_ne v GDT_Unknown |}.

(** [Convert<T>::value] *)
Definition Convert_value (T : CxxType) : Instantiation GDALDataType :=
  c <- Convert T ;; ret (value c).

(** [Convert<T>::is_recognized] *)
Definition Convert_is_recognized (T : CxxType) : Instantiation bool :=
  c <- Convert T ;; ret (is_recognized c).

(** ** namespace gdaltypetraits::test *)

Module test.

(** [enum EnumInt8 : int8_t { Foo };] *)
Definition EnumInt8 : CxxType := Enumeration 1 true.

(** [enum EnumUInt32 : uint32_t { Baz };] *)
Definition EnumUInt32 : CxxType := Enumeration 4 false.

(** [static_assert(Convert<T>::value == expected, "Convert<T> test failed.");] *)
Definition assert_value (T : CxxType) (expected : GDALDataType)
  : Instantiation unit :=
  v <- Convert_value T ;;
  static_assert (negb (GDALDataType_ne v expected)) "Convert<T> test failed.".

(** The compile-time tests, in the order of the header. *)
Definition static_asserts (dm : DataModel) : Instantiation unit :=
  assert_value int8_t GDT_Byte ;;
  assert_value int16_t GDT_Int16 ;;
  assert_value int32_t GDT_Int32 ;;
  assert_value uint8_t GDT_Byte ;;
  assert_value uint16_t GDT_UInt16 ;;
  assert_value uint32_t GDT_UInt32 ;;
  assert_value (float_t dm) GDT_Float32 ;;
  assert_value (double_t dm) GDT_Float64 ;;
  assert_value (void_ptr dm) GDT_Unknown ;;
  r <- Convert_is_recognized (void_ptr dm) ;;
  static_assert (negb r) "Convert<T> test failed." ;;
  r' <- Convert_is_recognized int8_t ;;
  static_assert r' "Convert<T> test failed." ;;
  assert_value EnumInt8 GDT_Byte ;;
  assert_value EnumUInt32 GDT_UInt32.

End test.

(** ** The mapping as a lookup table over type descriptors *)

(** What the mapping is said to depend on: the classification, the size
    and the signedness of a type. *)
Record TypeDescriptor : Set := mkDescriptor {
  d_class : bool * bool * bool;
  d_size : option N;
  d_signed : bool
}.

Definition descriptor (T : CxxType) : TypeDescriptor :=
  {| d_class := classification T;
     d_size := size_of T;
     d_signed := signedness T |}.

(** Looking a key up in a table of rows, [GDT_Unknown] when no row has it. *)
Fixpoint table_lookup {K : Type} (eqb : K -> K -> bool) (k : K)
  (rows : list (K * GDALDataType)) : GDALDataType :=
  match rows with
  | [] => GDT_Unknown
  | (k', v) :: rows' => if eqb k k' then v else table_lookup eqb k rows'
  end.

Definition size_sign_eqb (a b : N * bool) : bool :=
  (fst a =? fst b) && Bool.eqb (snd a) (snd b).

Definition float_rows : list (N * GDALDataType) :=
  [(4, GDT_Float32); (8, GDT_Float64)].

(** The integral rows as the table is worded: five rows, none for
    (1, signed). *)
Definition claimed_integral_rows : list (N * bool * GDALDataType) :=
  [((1, false), GDT_Byte);
   ((2, false), GDT_UInt16); ((2, true), GDT_Int16);
   ((4, false), GDT_UInt32); ((4, true), GDT_Int32)].

(** The table as worded: rows for integral and for floating-point types,
    [GDT_Unknown] for every combination not listed. *)
Definition claimed_lookup_table (d : TypeDescriptor) : GDALDataType :=
  match d_class d, d_size d with
  | (true, false, false), Some n =>
      table_lookup size_sign_eqb (n, d_signed d) claimed_integral_rows
  | (false, true, false), Some n => table_lookup N.eqb n float_rows
  | _, _ => GDT_Unknown
  end.

(** The integral rows of the header: the five above and (1, signed). *)
Definition integral_rows : list (N * bool * GDALDataType) :=
  ((1, true), GDT_Byte) :: claimed_integral_rows.

(** The table of the header: an enumeration reads the integral rows with
    the size and signedness of its underlying type. *)
Definition lookup_table (d : TypeDescriptor) : GDALDataType :=
  match d_class d, d_size d with
  | (true, false, false), Some n
  | (false, false, true), Some n =>
      table_lookup size_sign_eqb (n, d_signed d) integral_rows
  | (false, true, false), Some n => table_lookup N.eqb n float_rows
  | _, _ => GDT_Unknown
  end.

(** The eight data types the header names. *)
Definition produced_types : list GDALDataType :=
  [GDT_Unknown; GDT_Byte; GDT_UInt16; GDT_Int16; GDT_UInt32; GDT_Int32;
   GDT_Float32; GDT_Float64].

(** Sizes with a row for integral, respectively floating-point, types. *)
Definition integral_width_supported (n : N) : bool :=
  (n =? 1) || (n =? 2) || (n =? 4).

Definition float_width_supported (n : N) : bool :=
  (n =? 4) || (n =? 8).

(** The types the header has a data type for. *)
Definition has_gdal_type (T : CxxType) : bool :=
  match T with
  | Integral n _ | Enumeration n _ => integral_width_supported n
  | FloatingPoint n => float_width_supported n
  | Other _ _ => false
  end.

(** ** The templates over any universe of types

    The header reads a type [T] through <type_traits> and [sizeof] only.
    [TypeTraits] is that interface; the templates below are the same
    templates, written against the interface instead of [CxxType], so
    that a universe may tell apart types that share all their traits
    ([int] and [long] where both have 4 bytes, [char] and [signed char]). *)

Class TypeTraits (type : Type) : Type := {
  std_is_integral : type -> bool;
  std_is_floating_point : type -> bool;
  std_is_enum : type -> bool;
  std_is_signed : type -> bool;
  std_underlying : type -> option type;
  std_size_of : type -> option N
}.

(** [CxxType] with the traits defined above. *)
#[export] Instance CxxType_traits : TypeTraits CxxType := {|
  std_is_integral := is_integral;
  std_is_floating_point := is_floating_point;
  std_is_enum := is_enum;
  std_is_signed := is_signed;
  std_underlying := underlying;
  std_size_of := size_of
|}.

Module parametric.
Section Templates.
Context {type : Type} {traits : TypeTraits type}.

(** [sizeof(T)] *)
Definition sizeof (T : type) : Instantiation N :=
  match std_size_of T with
  | Some n => ret n
  | None => ill_formed "invalid application of sizeof to an incomplete type"
  end.

(** [typename std::underlying_type<T>::type] *)
Definition underlying_type (T : type) : Instantiation type :=
  match std_underlying T with
  | Some U => ret U
  | None => ill_formed "only enumeration types have underlying types"
  end.

(** [BuiltInToGDAL<true, false, false, T>::value] *)
Definition BuiltInToGDAL_Integral (T : type) : Instantiation GDALDataType :=
  n <- sizeof T ;;
  ret (internal.IntegralToGDAL n (std_is_signed T)).

(** [BuiltInToGDAL<false, true, false, T>::value] *)
Definition BuiltInToGDAL_Float (T : type) : Instantiation GDALDataType :=
  n <- sizeof T ;;
  ret (internal.FloatToGDAL n).

(** [BuiltInToGDAL<false, false, true, T>::value] *)
Definition BuiltInToGDAL_Enum (T : type) : Instantiation GDALDataType :=
  UnderlyingType <- underlying_type T ;;
  static_assert (std_is_integral UnderlyingType)
    "The enumeration base type must be integral." ;;
  BuiltInToGDAL_Integral UnderlyingType.

(** [BuiltInToGDAL<IsIntegral, IsFloat, IsEnum, T>::value] *)
Definition BuiltInToGDAL (IsIntegral IsFloat IsEnum : bool) (T : type)
  : Instantiation GDALDataType :=
  match IsIntegral, IsFloat, IsEnum with
  | true, false, false => BuiltInToGDAL_Integral T
  | false, true, false => BuiltInToGDAL_Float T
  | false, false, true => BuiltInToGDAL_Enum T
  | _, _, _ => ret GDT_Unknown
  end.

(** [internal::Convert<T>::value] *)
Definition internal_Convert (T : type) : Instantiation GDALDataType :=
  BuiltInToGDAL (std_is_integral T) (std_is_floating_point T)
    (std_is_enum T) T.

(** [gdaltypetraits::Convert<T>] *)
Definition Convert (T : type) : Instantiation ConvertMembers :=
  v <- internal_Convert T ;;
  ret {| value := v; is_recognized := GDALDataType_ne v GDT_Unknown |}.

(** [Convert<T>::value] *)
Definition Convert_value (T : type) : Instantiation GDALDataType :=
  c <- Convert T ;; ret (value c).

(** The three classification traits of a type. *)
Definition type_classification (T : type) : bool * bool * bool :=
  (std_is_integral T, std_is_floating_point T, std_is_enum T).

(** The signedness of a type: [std::is_signed] of the type, and for an
    enumeration [std::is_signed] of its underlying type. *)
Definition type_signedness (T : type) : bool :=
  match std_underlying T with
  | Some U => std_is_signed U
  | None => std_is_signed T
  end.

(** What the language guarantees of the traits: an arithmetic type is
    complete; an enumeration has an underlying type, which is integral
    and has the size of the enumeration; no other type has one. *)
Record TypeLaws : Prop := {
  arithmetic_is_complete : forall T : type,
    std_is_integral T = true \/ std_is_floating_point T = true ->
    std_size_of T <> None;
  enum_has_underlying : forall T : type,
    std_is_enum T = true ->
    exists U : type,
      std_underlying T = Some U /\
      std_is_integral U = true /\
      std_size_of U = std_size_of T;
  underlying_only_of_enum : forall T U : type,
    std_underlying T = Some U -> std_is_enum T = true
}.

End Templates.
End parametric.

(** ** The fundamental types by name

    A universe in which a type is its name: distinct types may share
    every trait.  The traits of a name are those of its description on
    the platform. *)

Inductive Fundamental : Set :=
  | f_bool
  | f_char | f_signed_char | f_unsigned_char
  | f_short | f_unsigned_short
  | f_int | f_unsigned_int
  | f_long | f_unsigned_long
  | f_long_long | f_unsigned_long_long
  | f_float | f_double | f_long_double
  | f_void | f_void_ptr.

Definition describe (dm : DataModel) (t : Fundamental) : CxxType :=
  match t with
  | f_bool => bool_t dm
  | f_char => char_t dm
  | f_signed_char => signed_char_t
  | f_unsigned_char => unsigned_char_t
  | f_short => short_t dm
  | f_unsigned_short => unsigned_short_t dm
  | f_int => int_t dm
  | f_unsigned_int => unsigned_int_t dm
  | f_long => long_t dm
  | f_unsigned_long => unsigned_long_t dm
  | f_long_long => long_long_t dm
  | f_unsigned_long_long => unsigned_long_long_t dm
  | f_float => float_ dm
  | f_double => double_ dm
  | f_long_double => long_double_ dm
  | f_void => void_
  | f_void_ptr => void_ptr dm
  end.

(** No fundamental type is an enumeration, so none has an underlying
    type. *)
Definition Fundamental_traits (dm : DataModel) : TypeTraits Fundamental := {|
  std_is_integral := fun t => is_integral (describe dm t);
  std_is_floating_point := fun t => is_floating_point (describe dm t);
  std_is_enum := fun t => is_enum (describe dm t);
  std_is_signed := fun t => is_signed (describe dm t);
  std_underlying := fun _ => None;
  std_size_of := fun t => size_of (describe dm t)
|}.

(** * Properties *)

(** ** The enumeration and its comparison *)

Lemma GDALDataType_code_inj (a b : GDALDataType) :
  GDALDataType_code a = GDALDataType_code b -> a = b.
Proof. destruct a, b; simpl; intro H; first [reflexivity | discriminate H]. Qed.

Lemma GDALDataType_ne_true (a b : GDALDataType) :
  GDALDataType_ne a b = true <-> a <> b.
Proof.
  unfold GDALDataType_ne. rewrite negb_true_iff, Z.eqb_neq. split.
  - intros Hc ->. now apply Hc.
  - intros Hab Hc. now apply Hab, GDALDataType_code_inj.
Qed.

Lemma GDALDataType_ne_false (a b : GDALDataType) :
  GDALDataType_ne a b = false <-> a = b.
Proof.
  unfold GDALDataType_ne. rewrite negb_false_iff, Z.eqb_eq. split.
  - apply GDALDataType_code_inj.
  - now intros ->.
Qed.

(** ** The two size-indexed templates

    A template with a size parameter picks a specialisation by the
    binary digits of the size; four digits tell 1, 2, 4 and 8 from every
    other size. *)

Ltac by_size n :=
  let p := fresh "p" in
  destruct n as [|p];
  [| do 4 (try (destruct p as [p|p|]))].

Lemma IntegralToGDAL_rows (n : N) (sg : bool) :
  internal.IntegralToGDAL n sg =
  table_lookup size_sign_eqb (n, sg) integral_rows.
Proof. by_size n; destruct sg; reflexivity. Qed.

Lemma FloatToGDAL_rows (n : N) :
  internal.FloatToGDAL n = table_lookup N.eqb n float_rows.
Proof. by_size n; reflexivity. Qed.

Lemma IntegralToGDAL_range (n : N) (sg : bool) :
  In (internal.IntegralToGDAL n sg) produced_types.
Proof. by_size n; destruct sg; simpl; tauto. Qed.

Lemma FloatToGDAL_range (n : N) :
  In (internal.FloatToGDAL n) produced_types.
Proof. by_size n; simpl; tauto. Qed.

Lemma IntegralToGDAL_known (n : N) (sg : bool) :
  GDALDataType_ne (internal.IntegralToGDAL n sg) GDT_Unknown =
  integral_width_supported n.
Proof. by_size n; destruct sg; reflexivity. Qed.

Lemma FloatToGDAL_known (n : N) :
  GDALDataType_ne (internal.FloatToGDAL n) GDT_Unknown =
  float_width_supported n.
Proof. by_size n; reflexivity. Qed.

(** With [CHAR_BIT == 8], the 8-bit types are the 1-byte types. *)
Lemma bit_width_8 (T : CxxType) :
  bit_width T = Some 8 -> size_of T = Some 1.
Proof.
  unfold bit_width. destruct (size_of T) as [s|]; [|discriminate].
  unfold option_map. intro H.
  assert (H8 : CHAR_BIT * s = 8) by congruence.
  unfold CHAR_BIT in H8. f_equal. lia.
Qed.

(** ** [Convert], one equation per kind of type *)

Lemma Convert_Integral (n : N) (sg : bool) :
  Convert_value (Integral n sg) = inr (internal.IntegralToGDAL n sg).
Proof. reflexivity. Qed.

Lemma Convert_FloatingPoint (n : N) :
  Convert_value (FloatingPoint n) = inr (internal.FloatToGDAL n).
Proof. reflexivity. Qed.

Lemma Convert_Enumeration (n : N) (sg : bool) :
  Convert_value (Enumeration n sg) = inr (internal.IntegralToGDAL n sg).
Proof. reflexivity. Qed.

Lemma Convert_Other (name : string) (size : option N) :
  Convert_value (Other name size) = inr GDT_Unknown.
Proof. reflexivity. Qed.

(** The [static_assert] of the enumeration branch holds for every
    enumeration: an underlying type is integral. *)
Lemma underlying_is_integral (T U : CxxType) :
  underlying T = Some U -> is_integral U = true.
Proof. destruct T; simpl; intro H; inversion H; reflexivity. Qed.

Lemma underlying_only_enum (T U : CxxType) :
  underlying T = Some U -> is_enum T = true.
Proof. destruct T; simpl; intro H; first [reflexivity | discriminate H]. Qed.

(** Instantiating [Convert<T>] never makes the program ill-formed, and
    [is_recognized] is computed from [value]. *)
Lemma Convert_members (T : CxxType) :
  exists v : GDALDataType,
    Convert_value T = inr v /\
    Convert T = inr {| value := v;
                       is_recognized := GDALDataType_ne v GDT_Unknown |}.
Proof. destruct T; eexists; split; reflexivity. Qed.

(** [Convert<T>::value] is the row of the table for the descriptor of [T]. *)
Lemma Convert_value_lookup (T : CxxType) :
  Convert_value T = inr (lookup_table (descriptor T)).
Proof.
  destruct T as [n sg|n|n sg|name size].
  - rewrite Convert_Integral, IntegralToGDAL_rows. reflexivity.
  - rewrite Convert_FloatingPoint, FloatToGDAL_rows. reflexivity.
  - rewrite Convert_Enumeration, IntegralToGDAL_rows. reflexivity.
  - rewrite Convert_Other. destruct size; reflexivity.
Qed.

(** Which types are recognized. *)
Lemma Convert_is_recognized_iff (T : CxxType) :
  Convert_is_recognized T = inr (has_gdal_type T).
Proof.
  destruct T as [n sg|n|n sg|name size]; simpl has_gdal_type.
  - rewrite <- (IntegralToGDAL_known n sg). reflexivity.
  - rewrite <- (FloatToGDAL_known n). reflexivity.
  - rewrite <- (IntegralToGDAL_known n sg). reflexivity.
  - reflexivity.
Qed.

(** The compile-time tests of the header pass on x86-64. *)
Lemma test_static_asserts_pass : test.static_asserts LP64 = inr tt.
Proof. reflexivity. Qed.

Lemma char_bit_check_passes : internal.char_bit_check = inr tt.
Proof. reflexivity. Qed.

(** Plain [char] maps to [GDT_Byte] whatever its signedness. *)
Lemma Convert_char (dm : DataModel) :
  Convert_value (char_t dm) = inr GDT_Byte.
Proof. unfold char_t. rewrite Convert_Integral. now destruct (char_is_signed dm). Qed.

(** C6, as worded, fails: [enum : int16_t] and [enum : uint16_t] have
    the same size, the same [std::is_signed] (false, as for every
    enumeration) and the same classification, and one maps to
    [GDT_Int16], the other to [GDT_UInt16]. *)
Lemma enum_is_signed_is_not_its_signedness :
  size_of (Enumeration 2 true) = size_of (Enumeration 2 false) /\
  is_signed (Enumeration 2 true) = is_signed (Enumeration 2 false) /\
  classification (Enumeration 2 true) = classification (Enumeration 2 false) /\
  Convert_value (Enumeration 2 true) = inr GDT_Int16 /\
  Convert_value (Enumeration 2 false) = inr GDT_UInt16.
Proof. repeat split. Qed.

(** ** The lookup table *)

(** C1, as worded, fails: the table of the claim has no row for
    (1, signed) and none for enumerations, so it sends [int8_t] and
    [enum EnumUInt32 : uint32_t] to [GDT_Unknown], while the header maps
    them to [GDT_Byte] and [GDT_UInt32]. *)
Lemma claimed_table_misses_int8_and_enums :
  Convert_value int8_t = inr GDT_Byte /\
  claimed_lookup_table (descriptor int8_t) = GDT_Unknown /\
  Convert_value test.EnumUInt32 = inr GDT_UInt32 /\
  claimed_lookup_table (descriptor test.EnumUInt32) = GDT_Unknown.
Proof. repeat split. Qed.

(** C1, amended: for every type [T], [Convert<T>::value] is the entry of
    [lookup_table] for the descriptor of [T]: the five integral rows of
    the claim and the row (1, signed) -> [GDT_Byte], the two
    floating-point rows, an enumeration read as its underlying integral
    type, and [GDT_Unknown] everywhere else.  In particular an 8-bit
    unsigned integral type gives [GDT_Byte] and a 4-byte floating-point
    type gives [GDT_Float32]. *)
Theorem Convert_is_the_lookup_table (T : CxxType) :
  Convert_value T = inr (lookup_table (descriptor T)) /\
  (is_integral T = true -> is_signed T = false -> bit_width T = Some 8 ->
   Convert_value T = inr GDT_Byte) /\
  (is_floating_point T = true -> size_of T = Some 4 ->
   Convert_value T = inr GDT_Float32).
Proof.
  split; [apply Convert_value_lookup|]. split.
  - intros Hi Hs Hbits. apply bit_width_8 in Hbits.
    destruct T as [n sg| | |]; try discriminate Hi.
    simpl in Hs, Hbits. subst sg. injection Hbits as ->.
    reflexivity.
  - destruct T as [|n| |]; simpl; try discriminate.
    intros _ Hn. injection Hn as ->. reflexivity.
Qed.

Lemma Convert_is_the_lookup_table_witness :
  Convert_value uint8_t = inr GDT_Byte /\
  Convert_value (float_ LP64) = inr GDT_Float32.
Proof.
  split.
  - exact (proj1 (proj2 (Convert_is_the_lookup_table uint8_t))
             eq_refl eq_refl eq_refl).
  - exact (proj2 (proj2 (Convert_is_the_lookup_table (float_ LP64)))
             eq_refl eq_refl).
Defined.

(** ** Types outside the three classes *)

(** C2: a type that is neither integral, nor floating-point, nor an
    enumeration instantiates [Convert] without error, with
    [value == GDT_Unknown] and [is_recognized == false]; this holds also
    where [sizeof] would not apply, as for [void]. *)
Theorem Convert_unclassified_is_Unknown (T : CxxType) :
  is_integral T = false ->
  is_floating_point T = false ->
  is_enum T = false ->
  Convert T = inr {| value := GDT_Unknown; is_recognized := false |}.
Proof.
  intros Hi Hf He. unfold Convert, internal.Convert.
  rewrite Hi, Hf, He. reflexivity.
Qed.

Lemma Convert_unclassified_is_Unknown_witness :
  Convert (void_ptr LP64) =
    inr {| value := GDT_Unknown; is_recognized := false |} /\
  Convert void_ = inr {| value := GDT_Unknown; is_recognized := false |}.
Proof.
  split.
  - apply (Convert_unclassified_is_Unknown (void_ptr LP64)); reflexivity.
  - apply (Convert_unclassified_is_Unknown void_); reflexivity.
Defined.

(** ** Enumerations *)

(** C3: an enumeration [E] whose underlying type [U] is integral maps to
    the data type of [U]: both instantiate, to the same value, which is
    [GDT_Byte] for a 1-byte [U] (so for [int8_t]), [GDT_Int16] or
    [GDT_UInt16] for a 2-byte [U], [GDT_Int32] or [GDT_UInt32] for a
    4-byte [U] (so [GDT_UInt32] for [uint32_t]), by the sign of [U], and
    [GDT_Unknown] for every other size. *)
Theorem Convert_enum_is_Convert_underlying (E U : CxxType) :
  is_enum E = true ->
  underlying E = Some U ->
  is_integral U = true ->
  exists v : GDALDataType,
    Convert_value E = inr v /\ Convert_value U = inr v /\
    (size_of U = Some 1 -> v = GDT_Byte) /\
    (size_of U = Some 2 ->
     v = if is_signed U then GDT_Int16 else GDT_UInt16) /\
    (size_of U = Some 4 ->
     v = if is_signed U then GDT_Int32 else GDT_UInt32) /\
    (size_of U <> Some 1 -> size_of U <> Some 2 -> size_of U <> Some 4 ->
     v = GDT_Unknown).
Proof.
  intros He HU Hi.
  destruct E as [| |n sg|]; try discriminate He.
  simpl in HU. injection HU as <-.
  exists (internal.IntegralToGDAL n sg).
  split; [apply Convert_Enumeration|].
  split; [apply Convert_Integral|].
  simpl size_of. simpl is_signed.
  repeat split.
  - intro H. injection H as ->. now destruct sg.
  - intro H. injection H as ->. now destruct sg.
  - intro H. injection H as ->. now destruct sg.
  - intros H1 H2 H4.
    by_size n; destruct sg; first [reflexivity | now contradiction].
Qed.

Lemma Convert_enum_is_Convert_underlying_witness :
  (Convert_value test.EnumInt8 = inr GDT_Byte /\
   Convert_value int8_t = inr GDT_Byte) /\
  (Convert_value test.EnumUInt32 = inr GDT_UInt32 /\
   Convert_value uint32_t = inr GDT_UInt32).
Proof.
  split.
  - destruct (Convert_enum_is_Convert_underlying test.EnumInt8 int8_t
                eq_refl eq_refl eq_refl)
      as (v & HE & HU & H1 & _).
    rewrite HE, HU, (H1 eq_refl). split; reflexivity.
  - destruct (Convert_enum_is_Convert_underlying test.EnumUInt32 uint32_t
                eq_refl eq_refl eq_refl)
      as (v & HE & HU & _ & _ & H4 & _).
    rewrite HE, HU, (H4 eq_refl). split; reflexivity.
Defined.

(** ** [is_recognized] *)

(** C4: for every type [T], [Convert<T>] instantiates and its boolean
    member [is_recognized] is true exactly when [value] is not
    [GDT_Unknown]. *)
Theorem is_recognized_iff_value_known (T : CxxType) :
  exists c : ConvertMembers,
    Convert T = inr c /\
    (is_recognized c = true <-> value c <> GDT_Unknown).
Proof.
  destruct (Convert_members T) as (v & _ & Hc).
  eexists. split; [exact Hc|]. simpl.
  apply GDALDataType_ne_true.
Qed.

(** C5, as worded, fails at the 8-byte integers: [int64_t] is an integral
    type and [Convert<int64_t>] is not recognized. *)
Lemma int64_is_not_recognized :
  is_integral int64_t = true /\
  Convert int64_t = inr {| value := GDT_Unknown; is_recognized := false |}.
Proof. split; reflexivity. Qed.

(** C5, amended: [Convert<T>] is recognized exactly for an integral type
    of 1, 2 or 4 bytes, an enumeration whose underlying type has 1, 2 or
    4 bytes, and a floating-point type of 4 or 8 bytes; every other type,
    whatever its class, gets [GDT_Unknown]. *)
Theorem recognized_widths (T : CxxType) :
  exists b : bool,
    Convert_is_recognized T = inr b /\
    (b = true <->
     exists n : N,
       size_of T = Some n /\
       ((is_integral T = true \/ is_enum T = true) /\
          (n = 1 \/ n = 2 \/ n = 4) \/
        is_floating_point T = true /\ (n = 4 \/ n = 8))).
Proof.
  exists (has_gdal_type T). split; [apply Convert_is_recognized_iff|].
  destruct T as [n sg|n|n sg|name size]; simpl;
    unfold integral_width_supported, float_width_supported;
    rewrite ?orb_true_iff, ?N.eqb_eq.
  - split.
    + intro H. exists n. split; [reflexivity|]. left. tauto.
    + intros (m & Hm & [[_ H]|[H _]]); [|discriminate H].
      injection Hm as ->. tauto.
  - split.
    + intro H. exists n. split; [reflexivity|]. right. tauto.
    + intros (m & Hm & [[[H|H] _]|[_ H]]); try discriminate H.
      injection Hm as ->. tauto.
  - split.
    + intro H. exists n. split; [reflexivity|]. left. tauto.
    + intros (m & Hm & [[_ H]|[H _]]); [|discriminate H].
      injection Hm as ->. tauto.
  - split; [discriminate|].
    intros (m & _ & [[[H|H] _]|[H _]]); discriminate H.
Qed.

(** ** The mapping as a function of the descriptor *)

Lemma CxxType_laws : @parametric.TypeLaws CxxType CxxType_traits.
Proof.
  split.
  - intros [n sg|n|n sg|name size]; simpl; intros [H|H];
      first [discriminate H | discriminate].
  - intros [n sg|n|n sg|name size]; simpl; intro H; try discriminate H.
    exists (Integral n sg). repeat split.
  - intros [n sg|n|n sg|name size] U; simpl; intro H;
      first [discriminate H | reflexivity].
Qed.

Lemma Fundamental_laws (dm : DataModel) :
  @parametric.TypeLaws Fundamental (Fundamental_traits dm).
Proof.
  split.
  - intros t; destruct t; simpl; intros [H|H];
      first [discriminate H | discriminate].
  - intros t; destruct t; simpl; intro H; discriminate H.
  - intros t U; simpl; intro H; discriminate H.
Qed.

(** On [CxxType] the templates over the interface are the templates of
    the header as embedded above. *)
Lemma parametric_Convert_CxxType (T : CxxType) :
  parametric.Convert T = Convert T /\
  parametric.Convert_value T = Convert_value T.
Proof. split; reflexivity. Qed.

(** On the fundamental types, they are [Convert] of the description. *)
Lemma parametric_Convert_Fundamental (dm : DataModel) (t : Fundamental) :
  @parametric.Convert_value Fundamental (Fundamental_traits dm) t =
  Convert_value (describe dm t).
Proof. destruct t; reflexivity. Qed.

(** C6, amended: in any universe of types obeying the laws of the
    language, two types with the same size, the same classification and
    the same signedness have the same [Convert<T>::value], which is the
    entry of [lookup_table] for that size, classification and signedness.
    The signedness of an enumeration is that of its underlying type;
    [std::is_signed] of the enumeration itself is always false and does
    not tell a signed enumeration from an unsigned one. *)
Theorem Convert_value_depends_on_traits_only
  (type : Type) (traits : TypeTraits type) (T1 T2 : type) :
  parametric.TypeLaws ->
  std_size_of T1 = std_size_of T2 ->
  parametric.type_signedness T1 = parametric.type_signedness T2 ->
  parametric.type_classification T1 = parametric.type_classification T2 ->
  exists v : GDALDataType,
    parametric.Convert_value T1 = inr v /\
    parametric.Convert_value T2 = inr v /\
    v = lookup_table
          {| d_class := parametric.type_classification T1;
             d_size := std_size_of T1;
             d_signed := parametric.type_signedness T1 |}.
Proof.
  intros [Hcomplete Henum Hunder] Hsize Hsign Hclass.
  unfold parametric.type_classification in *.
  injection Hclass as Hi Hf He.
  unfold parametric.Convert_value, parametric.Convert,
    parametric.internal_Convert.
  rewrite <- Hi, <- Hf, <- He.
  destruct (std_is_integral T1) eqn:Ei, (std_is_floating_point T1) eqn:Ef,
    (std_is_enum T1) eqn:Ee;
    try (exists GDT_Unknown; repeat split;
         unfold lookup_table; simpl; now destruct (std_size_of T1)).
  - (* integral *)
    assert (Hu1 : std_underlying T1 = None).
    { destruct (std_underlying T1) as [U|] eqn:EU; [|reflexivity].
      apply Hunder in EU. congruence. }
    assert (Hu2 : std_underlying T2 = None).
    { destruct (std_underlying T2) as [U|] eqn:EU; [|reflexivity].
      apply Hunder in EU. congruence. }
    unfold parametric.type_signedness in *.
    rewrite Hu1, Hu2 in Hsign. rewrite Hu1.
    assert (Hc : std_size_of T1 <> None) by (apply Hcomplete; now left).
    simpl. unfold parametric.BuiltInToGDAL_Integral, parametric.sizeof.
    rewrite <- Hsize, <- Hsign.
    destruct (std_size_of T1) as [n|]; [|now contradiction Hc].
    eexists. repeat split. apply IntegralToGDAL_rows.
  - (* floating point *)
    assert (Hc : std_size_of T1 <> None) by (apply Hcomplete; now right).
    simpl. unfold parametric.BuiltInToGDAL_Float, parametric.sizeof.
    rewrite <- Hsize.
    destruct (std_size_of T1) as [n|]; [|now contradiction Hc].
    eexists. repeat split. apply FloatToGDAL_rows.
  - (* enumeration *)
    destruct (Henum T1 Ee) as (U1 & HU1 & HI1 & HS1).
    destruct (Henum T2 (eq_sym He)) as (U2 & HU2 & HI2 & HS2).
    unfold parametric.type_signedness in *.
    rewrite HU1, HU2 in Hsign. rewrite HU1.
    assert (Hc : std_size_of U1 <> None) by (apply Hcomplete; now left).
    simpl. unfold parametric.BuiltInToGDAL_Enum, parametric.underlying_type,
      parametric.BuiltInToGDAL_Integral, parametric.sizeof.
    rewrite HU1, HU2. simpl. rewrite HI1, HI2. simpl.
    rewrite HS2, <- Hsize, <- HS1, <- Hsign.
    destruct (std_size_of U1) as [n|]; [|now contradiction Hc].
    eexists. repeat split. apply IntegralToGDAL_rows.
Qed.

(** Where [int] and [long] both have 4 bytes, they are two types with one
    value, [GDT_Int32]. *)
Lemma Convert_value_depends_on_traits_only_witness :
  @parametric.Convert_value Fundamental (Fundamental_traits ILP32_x87)
    f_int = inr GDT_Int32 /\
  @parametric.Convert_value Fundamental (Fundamental_traits ILP32_x87)
    f_long = inr GDT_Int32.
Proof.
  destruct (Convert_value_depends_on_traits_only
              Fundamental (Fundamental_traits ILP32_x87) f_int f_long
              (Fundamental_laws ILP32_x87) eq_refl eq_refl eq_refl)
    as (v & H1 & H2 & Hv).
  rewrite H1, H2, Hv. split; reflexivity.
Defined.

(** ** One-byte integral types *)

(** C7: an integral type of size 1 maps to [GDT_Byte] whether it is
    signed or not, exactly like [uint8_t]. *)
Theorem Convert_one_byte_integral (T : CxxType) :
  is_integral T = true ->
  size_of T = Some 1 ->
  Convert_value T = inr GDT_Byte /\
  Convert_value T = Convert_value uint8_t.
Proof.
  intros Hi Hs.
  destruct T as [n sg| | |]; try discriminate Hi.
  simpl in Hs. injection Hs as ->.
  rewrite Convert_Integral. destruct sg; split; reflexivity.
Qed.

Lemma Convert_one_byte_integral_witness :
  Convert_value int8_t = inr GDT_Byte /\
  Convert_value int8_t = Convert_value uint8_t.
Proof. apply (Convert_one_byte_integral int8_t); reflexivity. Defined.

(** ** The range of the mapping *)

(** C8: for every type [T], [Convert<T>::value] is one of [GDT_Unknown],
    [GDT_Byte], [GDT_UInt16], [GDT_Int16], [GDT_UInt32], [GDT_Int32],
    [GDT_Float32] and [GDT_Float64]; no other enumerator of
    [GDALDataType] is produced. *)
Theorem Convert_value_range (T : CxxType) :
  exists v : GDALDataType,
    Convert_value T = inr v /\
    In v [GDT_Unknown; GDT_Byte; GDT_UInt16; GDT_Int16; GDT_UInt32;
          GDT_Int32; GDT_Float32; GDT_Float64].
Proof.
  destruct T as [n sg|n|n sg|name size]; eexists; (split; [reflexivity|]).
  - apply IntegralToGDAL_range.
  - apply FloatToGDAL_range.
  - apply IntegralToGDAL_range.
  - now left.
Qed.

(** ** [bool] *)

(** C9: on a platform where [sizeof(bool) == 1], [bool] maps as a 1-byte
    unsigned integral: [Convert<bool>::value == GDT_Byte] and
    [Convert<bool>::is_recognized] is true. *)
Theorem Convert_bool_is_Byte (dm : DataModel) :
  sizeof_bool dm = 1 ->
  Convert (bool_t dm) = inr {| value := GDT_Byte; is_recognized := true |}.
Proof. unfold bool_t. intros ->. reflexivity. Qed.

Lemma Convert_bool_is_Byte_witness :
  Convert (bool_t LP64) = inr {| value := GDT_Byte; is_recognized := true |}.
Proof. apply (Convert_bool_is_Byte LP64). reflexivity. Defined.

(** * Further properties of the header *)

(** ** The compile-time tests on an arbitrary platform *)

Lemma assert_value_float32 (n : N) :
  test.assert_value (FloatingPoint n) GDT_Float32 =
  if n =? 4 then inr tt else inl "Convert<T> test failed."%string.
Proof. by_size n; reflexivity. Qed.

Lemma assert_value_float64 (n : N) :
  test.assert_value (FloatingPoint n) GDT_Float64 =
  if n =? 8 then inr tt else inl "Convert<T> test failed."%string.
Proof. by_size n; reflexivity. Qed.

(** Only the two assertions on [float_t] and [double_t] depend on the
    platform; the fourteen others hold everywhere. *)
Lemma static_asserts_by_platform (dm : DataModel) :
  test.static_asserts dm =
  if (sizeof_float_t dm =? 4) && (sizeof_double_t dm =? 8)
  then inr tt else inl "Convert<T> test failed."%string.
Proof.
  unfold test.static_asserts, float_t, double_t.
  change (test.assert_value int8_t GDT_Byte) with (@inr string unit tt).
  change (test.assert_value int16_t GDT_Int16) with (@inr string unit tt).
  change (test.assert_value int32_t GDT_Int32) with (@inr string unit tt).
  change (test.assert_value uint8_t GDT_Byte) with (@inr string unit tt).
  change (test.assert_value uint16_t GDT_UInt16) with (@inr string unit tt).
  change (test.assert_value uint32_t GDT_UInt32) with (@inr string unit tt).
  rewrite assert_value_float32, assert_value_float64.
  destruct (sizeof_float_t dm =? 4), (sizeof_double_t dm =? 8); reflexivity.
Qed.

(** X1: the compile-time tests of the header pass exactly on the platforms
    where [float_t] has 4 bytes and [double_t] has 8; the sizes of
    pointers and of the other fundamental types do not matter.  On every
    other platform the header is rejected with "Convert<T> test failed.". *)
Theorem header_tests_pass_iff (dm : DataModel) :
  (test.static_asserts dm = inr tt <->
   sizeof_float_t dm = 4 /\ sizeof_double_t dm = 8) /\
  (test.static_asserts dm <> inr tt ->
   test.static_asserts dm = inl "Convert<T> test failed."%string).
Proof.
  rewrite static_asserts_by_platform.
  destruct (N.eqb_spec (sizeof_float_t dm) 4) as [Hf|Hf];
    destruct (N.eqb_spec (sizeof_double_t dm) 8) as [Hd|Hd]; simpl;
    (split; [split|]);
    try (intro H; discriminate H); try tauto;
    try (intros [H4 H8]; contradiction).
Qed.

Lemma header_tests_pass_iff_witness :
  test.static_asserts ILP32_x87 = inl "Convert<T> test failed."%string.
Proof. apply (proj2 (header_tests_pass_iff ILP32_x87)). discriminate. Defined.

(** ** Reading a type back from its data type *)

(** X2: the data type tells the width of the type it was computed from:
    [GDT_Byte] comes from an 8-bit type only, [GDT_UInt16] and [GDT_Int16]
    from a 16-bit type, [GDT_UInt32], [GDT_Int32] and [GDT_Float32] from
    a 32-bit type, and [GDT_Float64] from a 64-bit type. *)
Theorem value_gives_bit_width (T : CxxType) (v : GDALDataType) :
  Convert_value T = inr v ->
  (v = GDT_Byte -> bit_width T = Some 8) /\
  (v = GDT_UInt16 \/ v = GDT_Int16 -> bit_width T = Some 16) /\
  (v = GDT_UInt32 \/ v = GDT_Int32 \/ v = GDT_Float32 ->
   bit_width T = Some 32) /\
  (v = GDT_Float64 -> bit_width T = Some 64).
Proof.
  intro Hv.
  destruct T as [n sg|n|n sg|name size];
    rewrite ?Convert_Integral, ?Convert_FloatingPoint, ?Convert_Enumeration,
      ?Convert_Other in Hv;
    injection Hv as <-;
    try (by_size n; try destruct sg);
    repeat split; intro H; first [reflexivity | intuition discriminate].
Qed.

Lemma value_gives_bit_width_witness :
  bit_width uint16_t = Some 16 /\ bit_width (double_ LP64) = Some 64.
Proof.
  split.
  - apply (proj1 (proj2 (value_gives_bit_width uint16_t GDT_UInt16 eq_refl))).
    now left.
  - apply (proj2 (proj2 (proj2
      (value_gives_bit_width (double_ LP64) GDT_Float64 eq_refl)))).
    reflexivity.
Defined.

(** X3: the data type tells the class and the signedness of the type it
    was computed from: the two floating-point codes come from
    floating-point types only, the five integer codes from integral types
    and enumerations only, [GDT_Int16] and [GDT_Int32] from signed ones and
    [GDT_UInt16] and [GDT_UInt32] from unsigned ones. *)
Theorem value_gives_class_and_sign (T : CxxType) (v : GDALDataType) :
  Convert_value T = inr v ->
  (v = GDT_Float32 \/ v = GDT_Float64 -> is_floating_point T = true) /\
  (v = GDT_Byte \/ v = GDT_UInt16 \/ v = GDT_Int16 \/
   v = GDT_UInt32 \/ v = GDT_Int32 ->
   is_integral T = true \/ is_enum T = true) /\
  (v = GDT_Int16 \/ v = GDT_Int32 -> signedness T = true) /\
  (v = GDT_UInt16 \/ v = GDT_UInt32 -> signedness T = false).
Proof.
  intro Hv.
  destruct T as [n sg|n|n sg|name size];
    rewrite ?Convert_Integral, ?Convert_FloatingPoint, ?Convert_Enumeration,
      ?Convert_Other in Hv;
    injection Hv as <-;
    try (by_size n; try destruct sg);
    repeat split; intro H;
    first [reflexivity | now left | now right | intuition discriminate].
Qed.

Lemma value_gives_class_and_sign_witness :
  signedness test.EnumUInt32 = false /\
  is_floating_point (float_ LP64) = true.
Proof.
  split.
  - apply (proj2 (proj2 (proj2
      (value_gives_class_and_sign test.EnumUInt32 GDT_UInt32 eq_refl)))).
    now right.
  - apply (proj1 (value_gives_class_and_sign (float_ LP64) GDT_Float32 eq_refl)).
    now left.
Defined.


(** ** Instantiating [BuiltInToGDAL] directly *)


(** X6: [BuiltInToGDAL] yields a data type other than [GDT_Unknown] only
    when exactly one of its three flags is set. *)
Theorem BuiltInToGDAL_known_needs_one_flag
  (i f e : bool) (T : CxxType) (v : GDALDataType) :
  internal.BuiltInToGDAL i f e T = inr v ->
  v <> GDT_Unknown ->
  (i, f, e) = (true, false, false) \/
  (i, f, e) = (false, true, false) \/
  (i, f, e) = (false, false, true).
Proof.
  intros Hv Hk.
  destruct i, f, e; simpl in Hv;
    try (injection Hv as <-; now contradiction Hk); tauto.
Qed.

Lemma BuiltInToGDAL_known_needs_one_flag_witness :
  (true, false, false) = (true, false, false) \/
  (true, false, false) = (false, true, false) \/
  (true, false, false) = (false, false, true).
Proof.
  apply (BuiltInToGDAL_known_needs_one_flag true false false int16_t GDT_Int16).
  - reflexivity.
  - discriminate.
Defined.
